(** * transcript.py: a speech-to-text handler over an ASR library

    A shallow embedding of [src/transcript.py].  The script glues two
    third-party libraries together (the ASR model library and the GUI
    toolkit); their entry points are the fields of the record [Library]
    below, and the script's own code ([transcribe] and the module body
    [main]) is written over that interface in a small state-and-exception
    monad that follows Python's control flow. *)

From Stdlib Require Import String Ascii List Bool ZArith QArith Lia.
Import ListNotations.
Open Scope string_scope.

(** ** Python values and control flow *)

Module Py.

(** An instance of a class derived from [Exception]: the class name and
    the text that [str(e)] (and an f-string placeholder) renders. *)
Record Exn : Type := mkExn { exn_class : string; exn_msg : string }.

Definition str (e : Exn) : string := exn_msg e.

(** The exceptions that derive from [BaseException] only.  A clause
    [except Exception] lets them through. *)
Inductive BaseExn : Type :=
| SystemExit (code : option Z)
| KeyboardInterrupt
| GeneratorExit.

(** How the evaluation of a call or of a block ends. *)
Inductive Outcome (A : Type) : Type :=
| Return (a : A)
| Raise (e : Exn)
| Unwind (b : BaseExn).
Arguments Return {A} a.
Arguments Raise {A} e.
Arguments Unwind {A} b.

(** A [dict] from language codes to probabilities, in insertion order.
    A probability is a finite float, hence a rational number. *)
Definition Dict : Type := list (string * Q).

(** Iterating a dict yields its keys in insertion order. *)
Definition keys (d : Dict) : list string := map fst d.

(** [d.get(k)], which is [None] where the key is absent. *)
Fixpoint get (d : Dict) (k : string) : option Q :=
  match d with
  | [] => None
  | (k', v) :: d' => if String.eqb k k' then Some v else get d' k
  end.

(** [d[k]], which raises [KeyError] where the key is absent. *)
Definition getitem (d : Dict) (k : string) : Outcome Q :=
  match get d k with
  | Some v => Return v
  | None => Raise (mkExn "KeyError" ("'" ++ k ++ "'"))
  end.

Definition type_name (x : option Q) : string :=
  match x with
  | Some _ => "float"
  | None => "NoneType"
  end.

(** [x > y] on the values that [d.get] produces: floats compare, and
    [None] does not support the comparison. *)
Definition gt (x y : option Q) : Outcome bool :=
  match x, y with
  | Some a, Some b => Return (negb (Qle_bool a b))
  | _, _ =>
      Raise (mkExn "TypeError"
               ("'>' not supported between instances of '" ++ type_name x
                ++ "' and '" ++ type_name y ++ "'"))
  end.

(** The loop of the builtin [max(iterable, key=...)]: the running
    maximum is replaced only by a strictly greater key value, so the
    first of several equal maxima wins. *)
Fixpoint max_loop (key : string -> option Q)
         (maxitem : string) (maxval : option Q) (it : list string)
  : Outcome string :=
  match it with
  | [] => Return maxitem
  | item :: it' =>
      let val := key item in
      match gt val maxval with
      | Return true => max_loop key item val it'
      | Return false => max_loop key maxitem maxval it'
      | Raise e => Raise e
      | Unwind b => Unwind b
      end
  end.

Definition max (iterable : list string) (key : string -> option Q)
  : Outcome string :=
  match iterable with
  | [] => Raise (mkExn "ValueError" "max() arg is an empty sequence")
  | item :: it => max_loop key item (key item) it
  end.

End Py.
Import Py.

(** ** The libraries the script imports *)

(** [whisper.DecodingOptions(fp16=..., language=...)]: the two keyword
    arguments the script passes; every other field keeps the library's
    default. *)
Record DecodingOptions : Type := mkDecodingOptions {
  fp16 : bool;
  language : option string
}.

(** The entry points of [whisper] and [gradio] that the script calls.
    [World] is everything outside the script that a call can read or
    change (the file system, the library's caches, the server socket):
    each call takes the world it runs in and gives back the world it
    leaves behind, with a value or an exception. *)
Record Library : Type := mkLibrary {
  World : Type;
  Model : Type;
  Audio : Type;
  Mel : Type;
  Device : Type;
  Tokens : Type;
  DecodingResult : Type;
  (** the bytes stored under a path, if any *)
  file_contents : World -> string -> option (list Byte.byte);
  (** [whisper.load_model(name, device=...)] *)
  load_model : string -> string -> World -> Outcome Model * World;
  (** [whisper.load_audio(path)] *)
  load_audio : string -> World -> Outcome Audio * World;
  (** [whisper.pad_or_trim(audio)] *)
  pad_or_trim : Audio -> World -> Outcome Audio * World;
  (** [whisper.log_mel_spectrogram(audio)] *)
  log_mel_spectrogram : Audio -> World -> Outcome Mel * World;
  (** [model.device] *)
  device : Model -> Device;
  (** [mel.to(device)] *)
  to : Mel -> Device -> World -> Outcome Mel * World;
  (** [model.detect_language(mel)] *)
  detect_language : Model -> Mel -> World -> Outcome (Tokens * Dict) * World;
  (** [whisper.decode(model, mel, options)] *)
  decode : Model -> Mel -> DecodingOptions -> World
           -> Outcome DecodingResult * World;
  (** [result.text] *)
  text : DecodingResult -> string;
  (** [format(p, ".4f")] *)
  format_4f : Q -> string;
  (** [gr.Interface(...).launch()]: building the interface and starting
      the server *)
  launch : World -> Outcome unit * World
}.

(** ** The state of the process and the monad of the script *)

Section Script.

Variable L : Library.

(** What the process has done so far, in order: each call into a
    library with the outcome it had, each line printed, and each
    answer handed back to the GUI. *)
Inductive Event : Type :=
| EvPrint (line : string)
| EvLoadModel (name dev : string) (r : Outcome (Model L))
| EvLoadAudio (path : string) (r : Outcome (Audio L))
| EvPadOrTrim (a : Audio L) (r : Outcome (Audio L))
| EvLogMel (a : Audio L) (r : Outcome (Mel L))
| EvTo (m : Mel L) (d : Device L) (r : Outcome (Mel L))
| EvDetectLanguage (m : Model L) (x : Mel L) (r : Outcome (Tokens L * Dict))
| EvDecode (m : Model L) (x : Mel L) (o : DecodingOptions)
           (r : Outcome (DecodingResult L))
| EvLaunch (r : Outcome unit)
| EvRespond (request : option string) (r : Outcome string).

(** [g_model] is the module-level name [model]: unbound until the
    assignment of line 18 has run. *)
Record State : Type := mkState {
  world : World L;
  g_model : option (Model L);
  trace : list Event
}.

Definition M (A : Type) : Type := State -> Outcome A * State.

Definition ret {A} (a : A) : M A := fun st => (Return a, st).

Definition bind {A B} (c : M A) (k : A -> M B) : M B :=
  fun st =>
    match c st with
    | (Return a, st') => k a st'
    | (Raise e, st') => (Raise e, st')
    | (Unwind b, st') => (Unwind b, st')
    end.

(** A pure Python operation that can raise. *)
Definition lift {A} (r : Outcome A) : M A := fun st => (r, st).

(** A call into a library: runs in the current world and is recorded
    with its outcome. *)
Definition call {A} (f : World L -> Outcome A * World L)
           (ev : Outcome A -> Event) : M A :=
  fun st =>
    let (r, w) := f (world st) in
    (r, mkState w (g_model st) (trace st ++ [ev r])).

Definition print (line : string) : M unit :=
  fun st => (Return tt, mkState (world st) (g_model st)
                                (trace st ++ [EvPrint line])).

(** [exit()] raises [SystemExit]. *)
Definition exit : M unit := fun st => (Unwind (SystemExit None), st).

(** Reading the global name [model]. *)
Definition get_model : M (Model L) :=
  fun st =>
    match g_model st with
    | Some m => (Return m, st)
    | None => (Raise (mkExn "NameError" "name 'model' is not defined"), st)
    end.

(** The assignment [model = ...] at module level. *)
Definition set_model (m : Model L) : M unit :=
  fun st => (Return tt, mkState (world st) (Some m) (trace st)).

(** [try: body / except Exception as e: handler], as a statement:
    whichever of the two runs, execution goes on after it. *)
Definition try_catch {A} (body : M A) (handler : Exn -> M A) : M A :=
  fun st =>
    match body st with
    | (Raise e, st') => handler e st'
    | r => r
    end.

(** [try: x = body / except Exception as e: return handler] inside a
    function, followed by the rest of the function [k]: the handler's
    value is the function's result, and [k] runs only when the body
    raised nothing. *)
Definition try_or_return {A B} (body : M A) (handler : Exn -> M B)
           (k : A -> M B) : M B :=
  fun st =>
    match body st with
    | (Return a, st') => k a st'
    | (Raise e, st') => handler e st'
    | (Unwind b, st') => (Unwind b, st')
    end.

End Script.

Arguments EvPrint {L} line.
Arguments EvLoadModel {L} name dev r.
Arguments EvLoadAudio {L} path r.
Arguments EvPadOrTrim {L} a r.
Arguments EvLogMel {L} a r.
Arguments EvTo {L} m d r.
Arguments EvDetectLanguage {L} m x r.
Arguments EvDecode {L} m x o r.
Arguments EvLaunch {L} r.
Arguments EvRespond {L} request r.
Arguments mkState {L} world g_model trace.
Arguments world {L} s.
Arguments g_model {L} s.
Arguments trace {L} s.
Arguments ret {L A} a.
Arguments bind {L A B} c k.
Arguments lift {L A} r.
Arguments call {L A} f ev.
Arguments print {L} line.
Arguments exit {L}.
Arguments get_model {L}.
Arguments set_model {L} m.
Arguments try_catch {L A} body handler.
Arguments try_or_return {L A B} body handler k.

Declare Scope py_scope.
Delimit Scope py_scope with py.
Notation "x <- c ;; k" := (bind c (fun x => k))
  (at level 61, c at next level, right associativity) : py_scope.
Notation "' p <- c ;; k" := (bind c (fun p => k))
  (at level 61, p pattern, c at next level, right associativity) : py_scope.
Notation "c ;; k" := (bind c (fun _ => k))
  (at level 61, right associativity) : py_scope.
Open Scope py_scope.

(** ** The script *)

Section Transcript.

Variable L : Library.

(** The calls into [whisper], each recorded with its arguments. *)
Definition whisper_load_model (name dev : string) : M L (Model L) :=
  call (load_model L name dev) (EvLoadModel name dev).

Definition whisper_load_audio (path : string) : M L (Audio L) :=
  call (load_audio L path) (EvLoadAudio path).

Definition whisper_pad_or_trim (audio : Audio L) : M L (Audio L) :=
  call (pad_or_trim L audio) (EvPadOrTrim audio).

Definition whisper_log_mel_spectrogram (audio : Audio L) : M L (Mel L) :=
  call (log_mel_spectrogram L audio) (EvLogMel audio).

Definition tensor_to (mel : Mel L) (d : Device L) : M L (Mel L) :=
  call (to L mel d) (EvTo mel d).

Definition model_detect_language (model : Model L) (mel : Mel L)
  : M L (Tokens L * Dict) :=
  call (detect_language L model mel) (EvDetectLanguage model mel).

Definition whisper_decode (model : Model L) (mel : Mel L)
           (options : DecodingOptions) : M L (DecodingResult L) :=
  call (decode L model mel options) (EvDecode model mel options).

(** Line 10. *)
Definition WHISPER_MODEL_SIZE : string := "tiny".

(** Lines 27-68.  The argument is [None] or a file path. *)
Definition transcribe (audio_filepath : option string) : M L string :=
  match audio_filepath with
  | None => ret "Please provide audio input."
  | Some path =>
      try_or_return
        (audio <- whisper_load_audio path ;;
         whisper_pad_or_trim audio)
        (fun e => ret ("Error processing audio file: " ++ str e))
        (fun audio =>
           mel0 <- whisper_log_mel_spectrogram audio ;;
           model <- get_model ;;
           mel <- tensor_to mel0 (device L model) ;;
           model <- get_model ;;
           ' (_, probs) <- model_detect_language model mel ;;
           detected_language <- lift (Py.max (keys probs) (get probs)) ;;
           p <- lift (getitem probs detected_language) ;;
           print ("Detected language: " ++ detected_language
                  ++ " with probability " ++ format_4f L p) ;;
           let options := mkDecodingOptions false (Some detected_language) in
           try_or_return
             (model <- get_model ;;
              whisper_decode model mel options)
             (fun e => ret ("Error during decoding: " ++ str e))
             (fun result => ret (text L result)))
  end.

(** The GUI toolkit calls the handler once for every clip that the
    microphone widget delivers.  The clips of a session are taken one
    after the other; an exception that leaves the handler is reported
    to the browser and the server keeps running. *)
Fixpoint serve (fn : option string -> M L string)
         (requests : list (option string)) : M L unit :=
  match requests with
  | [] => ret tt
  | request :: rest =>
      fun st =>
        match fn request st with
        | (Unwind b, st') => (Unwind b, st')
        | (r, st') =>
            serve fn rest
                  (mkState (world st') (g_model st')
                           (trace st' ++ [EvRespond request r]))
        end
  end.

(** Lines 73-88: [gr.Interface(fn=transcribe, ..., live=True).launch()]. *)
Definition gr_launch (fn : option string -> M L string)
           (requests : list (option string)) : M L unit :=
  call (launch L) EvLaunch ;;
  serve fn requests.

Definition newline : string := String (ascii_of_nat 10) EmptyString.

(** The module body, lines 16-24 and 71-91, for a session in which the
    browser sends [requests]. *)
Definition main (requests : list (option string)) : M L unit :=
  print ("Loading Whisper model: " ++ WHISPER_MODEL_SIZE ++ "...") ;;
  try_catch
    (model <- whisper_load_model WHISPER_MODEL_SIZE "cpu" ;;
     set_model model ;;
     print ("Whisper model '" ++ WHISPER_MODEL_SIZE
            ++ "' loaded successfully on CPU."))
    (fun e =>
       print ("Error loading Whisper model: " ++ str e) ;;
       print "Please ensure you have an internet connection for download (if not cached) and sufficient memory." ;;
       exit) ;;
  print (newline ++ "Launching Gradio Web UI...") ;;
  try_catch
    (gr_launch transcribe requests)
    (fun e =>
       print ("Error launching Gradio interface: " ++ str e) ;;
       print "Please ensure Gradio is installed (`pip install gradio`) and your port is available.").

(** A fresh process: nothing bound, nothing done. *)
Definition init (w : World L) : State L := mkState w None [].

End Transcript.


(** ** A small library to run the script on

    A stand-in for the two libraries, small enough to evaluate: the world
    is a count of the calls made so far and a file system; audio is a
    list of samples, padded or cut to [window] samples; language
    detection answers with a fixed table; decoding spells the language it
    was given and the number of non-zero samples.  [Fault] makes one
    chosen entry point raise [boom]. *)

Module Toy.

Inductive Fault : Type :=
| NoFault
| FailLoadModel
| FailPadOrTrim
| FailLogMel
| FailDetect
| EmptyProbs
| FailDecode
| FailLaunch.

Definition fault_eqb (a b : Fault) : bool :=
  match a, b with
  | NoFault, NoFault | FailLoadModel, FailLoadModel
  | FailPadOrTrim, FailPadOrTrim | FailLogMel, FailLogMel
  | FailDetect, FailDetect | EmptyProbs, EmptyProbs
  | FailDecode, FailDecode | FailLaunch, FailLaunch => true
  | _, _ => false
  end.

Record world : Type := mkWorld {
  calls : nat;
  files : list (string * list Byte.byte)
}.

Definition tick (w : world) : world := mkWorld (S (calls w)) (files w).

Fixpoint lookup (fs : list (string * list Byte.byte)) (path : string)
  : option (list Byte.byte) :=
  match fs with
  | [] => None
  | (p, b) :: fs' => if String.eqb path p then Some b else lookup fs' path
  end.

Definition window : nat := 4.

Fixpoint fit (n : nat) (a : list nat) : list nat :=
  match n with
  | O => []
  | S n' => match a with
            | [] => 0%nat :: fit n' []
            | x :: a' => x :: fit n' a'
            end
  end.

Definition digit (n : nat) : string :=
  String (ascii_of_nat (48 + n)) EmptyString.

Definition boom : Exn := mkExn "RuntimeError" "boom".

Definition table : Dict :=
  [("en", 1 # 5); ("fr", 7 # 10); ("de", 1 # 10)]%Q.

Definition failing {A} (f at_ : Fault) (ok : A) (w : world)
  : Outcome A * world :=
  if fault_eqb f at_ then (Raise boom, tick w) else (Return ok, tick w).

Definition lib (f : Fault) : Library :=
  {| World := world;
     Model := string;
     Audio := list nat;
     Mel := list nat;
     Device := string;
     Tokens := nat;
     DecodingResult := string;
     file_contents := fun w path => lookup (files w) path;
     load_model := fun name dev => failing f FailLoadModel name;
     load_audio := fun path w =>
       match lookup (files w) path with
       | Some b => (Return (map Byte.to_nat b), tick w)
       | None =>
           (Raise (mkExn "RuntimeError" ("Failed to load audio: " ++ path)),
            tick w)
       end;
     pad_or_trim := fun a => failing f FailPadOrTrim (fit window a);
     log_mel_spectrogram := fun a => failing f FailLogMel a;
     device := fun _ => "cpu";
     to := fun m _ w => (Return m, tick w);
     detect_language := fun _ _ =>
       failing f FailDetect
               (0%nat, if fault_eqb f EmptyProbs then [] else table);
     decode := fun _ m o =>
       failing f FailDecode
               (match language o with Some l => l | None => "?" end
                ++ ":" ++ digit (length (filter (fun x => negb (Nat.eqb x 0)) m)));
     text := fun r => r;
     format_4f := fun q => "0.7000";
     launch := failing f FailLaunch tt |}.

Definition disk : list (string * list Byte.byte) :=
  [("clip.wav", [Byte.x01; Byte.x00; Byte.x02; Byte.x03; Byte.x04])].

Definition boot (f : Fault) : State (lib f) := init (lib f) (mkWorld 0 disk).

(** The state once [model] is bound, before any request. *)
Definition ready (f : Fault) : State (lib f) :=
  @mkState (lib f) (mkWorld 1 disk) (Some "tiny") [].

(** A later moment of the same process: more calls made, a request
    already answered, another file on the disk. *)
Definition later (f : Fault) : State (lib f) :=
  @mkState (lib f)
    (mkWorld 9 (("other.wav", [Byte.x07]) :: disk))
    (Some "tiny")
    [@EvRespond (lib f) None (Return "Please provide audio input.")].

(** What a run on "clip.wav" logs before it calls [decode]. *)
Definition clip_events (f : Fault) : list (Event (lib f)) :=
  let L := lib f in
  [@EvLoadAudio L "clip.wav" (Return [1; 0; 2; 3; 4]%nat);
   @EvPadOrTrim L [1; 0; 2; 3; 4]%nat (Return [1; 0; 2; 3]%nat);
   @EvLogMel L [1; 0; 2; 3]%nat (Return [1; 0; 2; 3]%nat);
   @EvTo L [1; 0; 2; 3]%nat "cpu" (Return [1; 0; 2; 3]%nat);
   @EvDetectLanguage L "tiny" [1; 0; 2; 3]%nat (Return (0%nat, table));
   @EvPrint L "Detected language: fr with probability 0.7000"].

(** A library with a random source: the world's call count stands for
    the state of the generator, and decoding draws from it.  Everything
    else is as in [lib NoFault]. *)
Definition sampling : Library :=
  let L := lib NoFault in
  {| World := world;
     Model := string;
     Audio := list nat;
     Mel := list nat;
     Device := string;
     Tokens := nat;
     DecodingResult := string;
     file_contents := file_contents L;
     load_model := load_model L;
     load_audio := load_audio L;
     pad_or_trim := pad_or_trim L;
     log_mel_spectrogram := log_mel_spectrogram L;
     device := device L;
     to := to L;
     detect_language := detect_language L;
     decode := fun _ m o w =>
       (Return (match language o with Some l => l | None => "?" end
                ++ ":" ++ digit (Nat.modulo (calls w) 2)),
        tick w);
     text := text L;
     format_4f := format_4f L;
     launch := launch L |}.

(** Two moments of a process on [sampling] with the same model and the
    same disk; the generator has been used once more in the second. *)
Definition draw1 : State sampling :=
  @mkState sampling (mkWorld 1 disk) (Some "tiny") [].

Definition draw2 : State sampling :=
  @mkState sampling (mkWorld 2 disk) (Some "tiny") [].

(** A world in which the model object has state of its own: the number
    of hooks registered on it. *)
Record heap : Type := mkHeap {
  base : world;
  hooks : nat
}.

Definition on_base {A} (f : world -> Outcome A * world) (h : heap)
  : Outcome A * heap :=
  let (r, w) := f (base h) in (r, mkHeap w (hooks h)).

(** A library whose [decode] registers a hook on the model it is given
    and leaves it there.  Everything else is as in [lib NoFault]. *)
Definition hooked : Library :=
  let L := lib NoFault in
  {| World := heap;
     Model := string;
     Audio := list nat;
     Mel := list nat;
     Device := string;
     Tokens := nat;
     DecodingResult := string;
     file_contents := fun h => file_contents L (base h);
     load_model := fun name dev => on_base (load_model L name dev);
     load_audio := fun path => on_base (load_audio L path);
     pad_or_trim := fun a => on_base (pad_or_trim L a);
     log_mel_spectrogram := fun a => on_base (log_mel_spectrogram L a);
     device := device L;
     to := fun m d => on_base (to L m d);
     detect_language := fun m x => on_base (detect_language L m x);
     decode := fun m x o h =>
       let (r, w) := decode L m x o (base h) in
       (r, mkHeap w (S (hooks h)));
     text := text L;
     format_4f := format_4f L;
     launch := on_base (launch L) |}.

Definition hooked_ready : State hooked :=
  @mkState hooked (mkHeap (mkWorld 1 disk) 0) (Some "tiny") [].

End Toy.


(** ** Vocabulary of the properties *)

(** The events a computation appends to the log when started in [st]. *)
Definition events_of {L A} (c : M L A) (st : State L) : list (Event L) :=
  skipn (length (trace st)) (trace (snd (c st))).

(** [needle] occurs in [hay]. *)
Definition contains (needle hay : string) : Prop :=
  exists before after, hay = before ++ needle ++ after.

(** [k] is the key of the greatest probability of [d], and the first such
    key in the order of the dict. *)
Definition is_argmax (d : Dict) (k : string) : Prop :=
  exists v pre post,
    get d k = Some v
    /\ keys d = (pre ++ k :: post)%list
    /\ (forall k' v', In k' pre -> get d k' = Some v' -> (v' < v)%Q)
    /\ (forall k' v', get d k' = Some v' -> (v' <= v)%Q).

Definition is_load_model {L} (ev : Event L) : bool :=
  match ev with
  | EvLoadModel _ _ _ => true
  | _ => false
  end.

(** How many times the log shows a call of [whisper.load_model]. *)
Definition count_load_model {L} (tr : list (Event L)) : nat :=
  length (filter is_load_model tr).

(** The events that belong to answering requests: anything that runs
    once the server has been asked to start. *)
Definition is_serving {L} (ev : Event L) : bool :=
  match ev with
  | EvPrint _ | EvLoadModel _ _ _ => false
  | _ => true
  end.

(** The library computes: what a call returns or raises is fixed by its
    arguments, and for [load_audio] by the bytes stored under the path.
    (The world a call leaves behind is not constrained.) *)
Record deterministic (L : Library) : Prop := mkDeterministic {
  det_load_audio : forall path w w',
    file_contents L w path = file_contents L w' path ->
    fst (load_audio L path w) = fst (load_audio L path w');
  det_pad_or_trim : forall a w w',
    fst (pad_or_trim L a w) = fst (pad_or_trim L a w');
  det_log_mel_spectrogram : forall a w w',
    fst (log_mel_spectrogram L a w) = fst (log_mel_spectrogram L a w');
  det_to : forall x d w w',
    fst (to L x d w) = fst (to L x d w');
  det_detect_language : forall m x w w',
    fst (detect_language L m x w) = fst (detect_language L m x w');
  det_decode : forall m x o w w',
    fst (decode L m x o w) = fst (decode L m x o w')
}.

(** The handler gets as far as the call of [whisper.decode]: every call
    before it returned, and [evs] is what those calls logged. *)
Inductive reaches_decode (L : Library) (st : State L) (path : string)
  : Model L -> Mel L -> Dict -> string -> World L -> list (Event L) -> Prop :=
| ReachesDecode audio0 w1 audio w2 mel0 w3 model mel w4 tokens probs w5 lang p :
    load_audio L path (world st) = (Return audio0, w1) ->
    pad_or_trim L audio0 w1 = (Return audio, w2) ->
    log_mel_spectrogram L audio w2 = (Return mel0, w3) ->
    g_model st = Some model ->
    to L mel0 (device L model) w3 = (Return mel, w4) ->
    detect_language L model mel w4 = (Return (tokens, probs), w5) ->
    Py.max (keys probs) (get probs) = Return lang ->
    get probs lang = Some p ->
    reaches_decode L st path model mel probs lang w5
      [EvLoadAudio path (Return audio0);
       EvPadOrTrim audio0 (Return audio);
       EvLogMel audio (Return mel0);
       EvTo mel0 (device L model) (Return mel);
       EvDetectLanguage model mel (Return (tokens, probs));
       EvPrint ("Detected language: " ++ lang
                ++ " with probability " ++ format_4f L p)].

(** An exception raised inside one of the two [try] blocks of the
    handler, with the text the [except] clause of that block puts in
    front of it. *)
Inductive guarded_failure (L : Library) (st : State L) (path : string)
          (e : Exn) : string -> Prop :=
| FailLoadAudio w :
    load_audio L path (world st) = (Raise e, w) ->
    guarded_failure L st path e "Error processing audio file: "
| FailPadOrTrim audio0 w1 w :
    load_audio L path (world st) = (Return audio0, w1) ->
    pad_or_trim L audio0 w1 = (Raise e, w) ->
    guarded_failure L st path e "Error processing audio file: "
| FailDecode model mel probs lang w5 evs w :
    reaches_decode L st path model mel probs lang w5 evs ->
    decode L model mel (mkDecodingOptions false (Some lang)) w5 = (Raise e, w) ->
    guarded_failure L st path e "Error during decoding: ".

(** What the handler returns once [whisper.decode] has ended with [r]. *)
Definition after_decode {L} (r : Outcome (DecodingResult L)) : Outcome string :=
  match r with
  | Return result => Return (text L result)
  | Raise e => Return ("Error during decoding: " ++ str e)
  | Unwind b => Unwind b
  end.

(** An observation [read] of the world (the state of the model object,
    say) that none of the library calls of the handler changes. *)
Record untouched_by_library (L : Library) {S : Type} (read : World L -> S)
  : Prop := mkUntouched {
  keep_load_audio : forall path w,
    read (snd (load_audio L path w)) = read w;
  keep_pad_or_trim : forall a w,
    read (snd (pad_or_trim L a w)) = read w;
  keep_log_mel_spectrogram : forall a w,
    read (snd (log_mel_spectrogram L a w)) = read w;
  keep_to : forall x d w,
    read (snd (to L x d w)) = read w;
  keep_detect_language : forall m x w,
    read (snd (detect_language L m x w)) = read w;
  keep_decode : forall m x o w,
    read (snd (decode L m x o w)) = read w
}.

(** A computation of the script leaves the observation as it found it. *)
Definition preserves {L S A} (read : World L -> S) (c : M L A) : Prop :=
  forall st, read (world (snd (c st))) = read (world st).

(** The handler gets as far as the call of [model.detect_language]:
    loading, pad/trim, the spectrogram and the move to the model's device
    all returned, and [evs] is what they logged. *)
Inductive reaches_detection (L : Library) (st : State L) (path : string)
  : Model L -> Mel L -> World L -> list (Event L) -> Prop :=
| ReachesDetection audio0 w1 audio w2 mel0 w3 model mel w4 :
    load_audio L path (world st) = (Return audio0, w1) ->
    pad_or_trim L audio0 w1 = (Return audio, w2) ->
    log_mel_spectrogram L audio w2 = (Return mel0, w3) ->
    g_model st = Some model ->
    to L mel0 (device L model) w3 = (Return mel, w4) ->
    reaches_detection L st path model mel w4
      [EvLoadAudio path (Return audio0);
       EvPadOrTrim audio0 (Return audio);
       EvLogMel audio (Return mel0);
       EvTo mel0 (device L model) (Return mel)].

(** An exception raised by one of the calls of lines 51-55, which stand
    between the two [try] blocks of the handler; [w] is the world the
    failing call leaves behind. *)
Inductive unguarded_failure (L : Library) (st : State L) (path : string)
          (e : Exn) (w : World L) : Prop :=
| FailLogMel audio0 w1 audio w2 :
    load_audio L path (world st) = (Return audio0, w1) ->
    pad_or_trim L audio0 w1 = (Return audio, w2) ->
    log_mel_spectrogram L audio w2 = (Raise e, w) ->
    unguarded_failure L st path e w
| FailTo audio0 w1 audio w2 mel0 w3 model :
    load_audio L path (world st) = (Return audio0, w1) ->
    pad_or_trim L audio0 w1 = (Return audio, w2) ->
    log_mel_spectrogram L audio w2 = (Return mel0, w3) ->
    g_model st = Some model ->
    to L mel0 (device L model) w3 = (Raise e, w) ->
    unguarded_failure L st path e w
| FailDetect model mel w4 evs :
    reaches_detection L st path model mel w4 evs ->
    detect_language L model mel w4 = (Raise e, w) ->
    unguarded_failure L st path e w.

Definition is_decode {L} (ev : Event L) : bool :=
  match ev with
  | EvDecode _ _ _ _ => true
  | _ => false
  end.

(** The two calls of the first [try] block. *)
Definition is_preprocessing {L} (ev : Event L) : bool :=
  match ev with
  | EvLoadAudio _ _ | EvPadOrTrim _ _ => true
  | _ => false
  end.

(** Which entry point, or [print], an event is a use of. *)
Definition kind {L} (ev : Event L) : nat :=
  match ev with
  | EvPrint _ => 0
  | EvLoadModel _ _ _ => 1
  | EvLoadAudio _ _ => 2
  | EvPadOrTrim _ _ => 3
  | EvLogMel _ _ => 4
  | EvTo _ _ _ => 5
  | EvDetectLanguage _ _ _ => 6
  | EvDecode _ _ _ _ => 7
  | EvLaunch _ => 8
  | EvRespond _ _ => 9
  end.

(** An event that reads an audio file reads [path]. *)
Definition reads_only {L} (path : string) (ev : Event L) : Prop :=
  match ev with
  | EvLoadAudio p _ => p = path
  | _ => True
  end.

(** An event that runs the model runs [m]. *)
Definition uses_model {L} (m : Model L) (ev : Event L) : Prop :=
  match ev with
  | EvDetectLanguage m' _ _ | EvDecode m' _ _ _ => m' = m
  | _ => True
  end.

Definition base_exception {A} (r : Outcome A) : option BaseExn :=
  match r with
  | Unwind b => Some b
  | _ => None
  end.

(** The [BaseException] a logged call ended in, if it ended in one. *)
Definition unwound {L} (ev : Event L) : option BaseExn :=
  match ev with
  | EvPrint _ => None
  | EvLoadModel _ _ r => base_exception r
  | EvLoadAudio _ r => base_exception r
  | EvPadOrTrim _ r => base_exception r
  | EvLogMel _ r => base_exception r
  | EvTo _ _ r => base_exception r
  | EvDetectLanguage _ _ r => base_exception r
  | EvDecode _ _ _ r => base_exception r
  | EvLaunch r => base_exception r
  | EvRespond _ r => base_exception r
  end.

(** The same for the last event of a log. *)
Definition last_unwound {L} (evs : list (Event L)) : option BaseExn :=
  match rev evs with
  | ev :: _ => unwound ev
  | [] => None
  end.

(** ** The builtin [max] over a dict *)

Section PyMax.

Local Open Scope Q_scope.

Lemma get_of_key (d : Dict) (k : string) :
  In k (keys d) -> exists v, get d k = Some v.
Proof.
  induction d as [|[k0 v0] d IH]; simpl; [tauto|].
  intros [Hk | Hk].
  - subst k0. rewrite String.eqb_refl. eauto.
  - destruct (String.eqb k k0); eauto.
Qed.

Lemma key_of_get (d : Dict) (k : string) (v : Q) :
  get d k = Some v -> In k (keys d).
Proof.
  induction d as [|[k0 v0] d IH]; simpl; [discriminate|].
  destruct (String.eqb k k0) eqn:E.
  - apply String.eqb_eq in E. auto.
  - auto.
Qed.

Variable key : string -> option Q.

(** What the loop returns, by where the winner stands: it is the
    running maximum it started from, or an item of the remaining list
    that beats everything before it. *)
Lemma max_loop_spec (it : list string) :
  forall (m : string) (mv : Q),
    (forall k, In k it -> exists v, key k = Some v) ->
    exists k,
      max_loop key m (Some mv) it = Return k
      /\ ((k = m
           /\ forall k' v', In k' it -> key k' = Some v' -> v' <= mv)
          \/ exists v pre post,
              it = (pre ++ k :: post)%list
              /\ key k = Some v
              /\ mv < v
              /\ (forall k' v', In k' pre -> key k' = Some v' -> v' < v)
              /\ (forall k' v', In k' post -> key k' = Some v' -> v' <= v)).
Proof.
  induction it as [|x it IH]; intros m mv Hall.
  - exists m. split; [reflexivity|]. left. split; [reflexivity|].
    intros k' v' [].
  - destruct (Hall x (or_introl eq_refl)) as [xv Hx].
    assert (Hall' : forall k, In k it -> exists v, key k = Some v)
      by (intros k Hk; apply Hall; right; exact Hk).
    simpl. rewrite Hx. simpl.
    destruct (Qle_bool xv mv) eqn:Hle; simpl.
    + apply Qle_bool_iff in Hle.
      destruct (IH m mv Hall') as [k [Hrun Hk]].
      exists k. split; [exact Hrun|].
      destruct Hk as [[-> Hrest] | [v [pre [post [-> [Hkv [Hlt [Hpre Hpost]]]]]]]].
      * left. split; [reflexivity|].
        intros k' v' [<- | Hin] Hk'.
        -- rewrite Hx in Hk'. injection Hk' as <-. exact Hle.
        -- eapply Hrest; eassumption.
      * right. exists v, (x :: pre), post.
        repeat split; try assumption.
        intros k' v' [<- | Hin] Hk'.
        -- rewrite Hx in Hk'. injection Hk' as <-.
           eapply Qle_lt_trans; eassumption.
        -- eapply Hpre; eassumption.
    + assert (Hgt : mv < xv).
      { apply Qnot_le_lt. intro H. apply Qle_bool_iff in H. congruence. }
      destruct (IH x xv Hall') as [k [Hrun Hk]].
      exists k. split; [exact Hrun|].
      right.
      destruct Hk as [[-> Hrest] | [v [pre [post [-> [Hkv [Hlt [Hpre Hpost]]]]]]]].
      * exists xv, [], it. repeat split; try assumption.
        intros k' v' [].
      * exists v, (x :: pre), post.
        repeat split; try assumption.
        -- eapply Qlt_trans; eassumption.
        -- intros k' v' [<- | Hin] Hk'.
           ++ rewrite Hx in Hk'. injection Hk' as <-. exact Hlt.
           ++ eapply Hpre; eassumption.
Qed.

End PyMax.

(** On a dict that is not empty, [max(d, key=d.get)] returns, and what
    it returns is the first key of the greatest value. *)
Lemma max_dict_spec (d : Dict) :
  d <> [] ->
  exists k, Py.max (keys d) (get d) = Return k /\ is_argmax d k.
Proof.
  destruct d as [|[k0 v0] d]; [congruence|]. intros _.
  assert (H0 : get ((k0, v0) :: d) k0 = Some v0)
    by (simpl; rewrite String.eqb_refl; reflexivity).
  destruct (max_loop_spec (get ((k0, v0) :: d)) (keys d) k0 v0) as [k [Hrun Hk]].
  { intros k Hk. apply get_of_key. right. exact Hk. }
  exists k. split.
  { unfold Py.max. cbn [keys map fst]. rewrite H0. exact Hrun. }
  destruct Hk as [[-> Hrest] | [v [pre [post [Heq [Hkv [Hlt [Hpre Hpost]]]]]]]].
  - exists v0, [], (keys d). repeat split.
    + exact H0.
    + intros k' v' [].
    + intros k' v' Hg. pose proof (key_of_get _ _ _ Hg) as [Hin | Hin].
      * simpl in Hin. subst k'. rewrite H0 in Hg. injection Hg as <-.
        apply Qle_refl.
      * eapply Hrest; eassumption.
  - exists v, (k0 :: pre), post. repeat split.
    + exact Hkv.
    + cbn [keys map fst]. fold (keys d). rewrite Heq. reflexivity.
    + intros k' v' [<- | Hin] Hg.
      * rewrite H0 in Hg. injection Hg as <-. exact Hlt.
      * eapply Hpre; eassumption.
    + intros k' v' Hg. pose proof (key_of_get _ _ _ Hg) as [Hin | Hin].
      * simpl in Hin. subst k'. rewrite H0 in Hg. injection Hg as <-.
        apply Qlt_le_weak. exact Hlt.
      * fold (keys d) in Hin. rewrite Heq in Hin.
        apply in_app_or in Hin. destruct Hin as [Hin | [<- | Hin]].
        -- apply Qlt_le_weak. eapply Hpre; eassumption.
        -- rewrite Hkv in Hg. injection Hg as <-. apply Qle_refl.
        -- eapply Hpost; eassumption.
Qed.

Lemma max_dict_inv (d : Dict) (k : string) :
  Py.max (keys d) (get d) = Return k -> is_argmax d k.
Proof.
  intro H. destruct d as [|kv d].
  - discriminate H.
  - destruct (max_dict_spec (kv :: d)) as [k' [Hrun Hk']]; [congruence|].
    rewrite Hrun in H. injection H as <-. exact Hk'.
Qed.

Lemma max_dict_outcome (d : Dict) :
  (d = [] /\ exists e, Py.max (keys d) (get d) = Raise e)
  \/ exists k v, Py.max (keys d) (get d) = Return k /\ get d k = Some v.
Proof.
  destruct d as [|kv d].
  - left. split; [reflexivity|]. eexists. reflexivity.
  - right. destruct (max_dict_spec (kv :: d)) as [k [Hrun [v [_ [_ [Hv _]]]]]];
      [congruence|]. eauto.
Qed.

(** ** Runs of [transcribe]: lemmas *)

(** [max] on concrete dicts: the greatest value wins, the first of two
    equal values wins, and an empty dict has no maximum. *)
Example max_of_table : Py.max (keys Toy.table) (get Toy.table) = Return "fr".
Proof. reflexivity. Qed.

Example max_of_tie :
  Py.max (keys [("en", 1 # 2); ("fr", 1 # 2)]%Q)
         (get [("en", 1 # 2); ("fr", 1 # 2)]%Q) = Return "en".
Proof. reflexivity. Qed.

Example max_of_empty :
  Py.max (keys []) (get [])
  = Raise (mkExn "ValueError" "max() arg is an empty sequence").
Proof. reflexivity. Qed.

(** The handler on the stand-in library: a clip that decodes, a path
    with no file behind it, and a whole session of two requests. *)
Example transcribe_clip :
  fst (transcribe (Toy.lib Toy.NoFault) (Some "clip.wav")
                  (Toy.ready Toy.NoFault)) = Return "fr:3".
Proof. reflexivity. Qed.

Example transcribe_missing_file :
  fst (transcribe (Toy.lib Toy.NoFault) (Some "nope.wav")
                  (Toy.ready Toy.NoFault))
  = Return "Error processing audio file: Failed to load audio: nope.wav".
Proof. reflexivity. Qed.

Example session_responses :
  filter (fun ev => match ev with EvRespond _ _ => true | _ => false end)
         (trace (snd (main (Toy.lib Toy.NoFault) [Some "clip.wav"; None]
                           (Toy.boot Toy.NoFault))))
  = [EvRespond (Some "clip.wav") (Return "fr:3");
     EvRespond None (Return "Please provide audio input.")].
Proof. reflexivity. Qed.

Lemma skipn_length_app {A} (l l' : list A) : skipn (length l) (l ++ l') = l'.
Proof. induction l; simpl; auto. Qed.

Ltac unfold_script :=
  cbv [transcribe try_or_return try_catch bind ret lift call print
       whisper_load_audio whisper_pad_or_trim whisper_log_mel_spectrogram
       tensor_to model_detect_language whisper_decode get_model].

(** From the call of [whisper.decode] on, the run is fixed by how that
    call ends. *)
Lemma transcribe_at_decode L st path model mel probs lang w5 evs :
  reaches_decode L st path model mel probs lang w5 evs ->
  forall r w6,
    decode L model mel (mkDecodingOptions false (Some lang)) w5 = (r, w6) ->
    transcribe L (Some path) st
    = (after_decode r,
       mkState w6 (g_model st)
               (trace st ++ evs
                ++ [EvDecode model mel (mkDecodingOptions false (Some lang)) r])).
Proof.
  intros Hreach r w6 Hdec. inversion Hreach; subst; clear Hreach.
  unfold_script. cbn [world g_model trace].
  repeat match goal with
         | H : _ = (_, _) |- _ => rewrite H; clear H; cbn [world g_model trace]
         | H : g_model _ = Some _ |- _ => rewrite H; cbn [world g_model trace]
         | H : Py.max _ _ = _ |- _ => rewrite H; clear H; cbn [world g_model trace]
         end.
  unfold getitem.
  match goal with H : get _ _ = Some _ |- _ => rewrite H end.
  cbn [world g_model trace].
  match goal with H : g_model _ = Some _ |- _ => rewrite ?H end.
  destruct r; cbn [after_decode]; rewrite <- !app_assoc; reflexivity.
Qed.

Ltac no_such_event :=
  let H := fresh "H" in
  intro H;
  rewrite <- ?app_assoc in H; rewrite skipn_length_app in H;
  simpl in H; intuition discriminate.

Ltac run_call c :=
  let H := fresh "Hcall" in
  destruct c as [[?|?|?] ?] eqn:H; cbn [world g_model trace fst snd];
  try no_such_event.

(** A call of [whisper.decode] in the log of a run is the one call the
    handler makes once everything before it has returned. *)
Lemma decode_event_inv L st path m x o r :
  In (EvDecode m x o r) (events_of (transcribe L (Some path)) st) ->
  exists probs lang w5 evs w6,
    reaches_decode L st path m x probs lang w5 evs
    /\ o = mkDecodingOptions false (Some lang)
    /\ decode L m x o w5 = (r, w6).
Proof.
  unfold events_of. unfold_script. cbn [world g_model trace].
  run_call (load_audio L path (world st)).
  run_call (pad_or_trim L a w).
  run_call (log_mel_spectrogram L a0 w0).
  destruct (g_model st) as [model|] eqn:Hmodel; cbn [world g_model trace fst snd];
    try no_such_event.
  run_call (to L a1 (device L model) w1).
  run_call (detect_language L model a2 w2).
  destruct a3 as [tokens probs].
  destruct (max_dict_outcome probs) as [[-> [e He]] | [lang [p [Hmax Hp]]]].
  - cbn. no_such_event.
  - rewrite Hmax. unfold getitem. rewrite Hp. cbn [world g_model trace fst snd].
    destruct (decode L model a2 (mkDecodingOptions false (Some lang)) w3)
      as [r' w6] eqn:Hdec.
    assert (Hreach : reaches_decode L st path model a2 probs lang w3
              [EvLoadAudio path (Return a);
               EvPadOrTrim a (Return a0);
               EvLogMel a0 (Return a1);
               EvTo a1 (device L model) (Return a2);
               EvDetectLanguage model a2 (Return (tokens, probs));
               EvPrint ("Detected language: " ++ lang
                        ++ " with probability " ++ format_4f L p)])
      by (econstructor; eassumption).
    intro HIn.
    assert (HIn' : EvDecode model a2 (mkDecodingOptions false (Some lang)) r'
                   = EvDecode m x o r).
    { destruct r'; cbn [world g_model trace fst snd] in HIn;
        rewrite <- ?app_assoc in HIn; rewrite skipn_length_app in HIn;
        simpl in HIn; intuition discriminate. }
    injection HIn' as -> -> <- ->.
    exists probs, lang, w3. eexists. exists w6.
    split; [exact Hreach|]. split; [reflexivity | exact Hdec].
Qed.

Lemma events_of_transcribe_none L st : events_of (transcribe L None) st = [].
Proof. unfold events_of. simpl. apply skipn_all. Qed.

Lemma events_at_decode L st path model mel probs lang w5 evs r w6 :
  reaches_decode L st path model mel probs lang w5 evs ->
  decode L model mel (mkDecodingOptions false (Some lang)) w5 = (r, w6) ->
  events_of (transcribe L (Some path)) st
  = (evs ++ [EvDecode model mel (mkDecodingOptions false (Some lang)) r])%list.
Proof.
  intros Hreach Hdec. unfold events_of.
  rewrite (transcribe_at_decode _ _ _ _ _ _ _ _ _ Hreach _ _ Hdec).
  cbn [snd trace]. apply skipn_length_app.
Qed.

Lemma detect_event_at_decode L st path model mel probs lang w5 evs :
  reaches_decode L st path model mel probs lang w5 evs ->
  exists tokens, In (EvDetectLanguage model mel (Return (tokens, probs))) evs.
Proof.
  intros Hreach. inversion Hreach; subst. exists tokens. simpl. tauto.
Qed.

(** ** The claims *)

(** C4.  When the argument is [None], [transcribe] returns the fixed
    message "Please provide audio input." and leaves the state as it
    found it: no library call is made, nothing is logged and the world is
    untouched. *)
Theorem C4_no_audio_input (L : Library) (st : State L) :
  transcribe L None st = (Return "Please provide audio input.", st).
Proof. reflexivity. Qed.

(** C3.  When [whisper.load_audio] raises an exception, or returns and
    [whisper.pad_or_trim] raises one, [transcribe] returns a string in
    which "Error processing audio file" occurs; it does not raise. *)
Theorem C3_audio_error_is_returned (L : Library) (st : State L)
        (path : string) (e : Exn) (w : World L) :
  (load_audio L path (world st) = (Raise e, w)
   \/ exists audio0 w1,
       load_audio L path (world st) = (Return audio0, w1)
       /\ pad_or_trim L audio0 w1 = (Raise e, w)) ->
  exists s,
    fst (transcribe L (Some path) st) = Return s
    /\ contains "Error processing audio file" s.
Proof.
  intros H.
  exists ("Error processing audio file: " ++ str e). split.
  - unfold_script. destruct H as [Hload | [audio0 [w1 [Hload Hpad]]]].
    + rewrite Hload. reflexivity.
    + rewrite Hload. cbn [world g_model trace]. rewrite Hpad. reflexivity.
  - exists EmptyString, (": " ++ str e). reflexivity.
Qed.

Lemma C3_witness :
  exists s,
    fst (transcribe (Toy.lib Toy.NoFault) (Some "nope.wav")
                    (Toy.ready Toy.NoFault)) = Return s
    /\ contains "Error processing audio file" s.
Proof.
  apply (C3_audio_error_is_returned (Toy.lib Toy.NoFault)
           (Toy.ready Toy.NoFault) "nope.wav"
           (mkExn "RuntimeError" "Failed to load audio: nope.wav")
           (Toy.mkWorld 2 Toy.disk)).
  left. reflexivity.
Defined.

(** C1, as the code has it.  An exception raised by [whisper.load_audio]
    or by [whisper.pad_or_trim] is caught and returned as "Error
    processing audio file: " followed by its text; an exception raised by
    [whisper.decode] is caught and returned as "Error during decoding: "
    followed by its text. *)
Theorem C1_guarded_steps_return_message (L : Library) (st : State L)
        (path : string) (e : Exn) (prefix : string) :
  guarded_failure L st path e prefix ->
  fst (transcribe L (Some path) st) = Return (prefix ++ str e).
Proof.
  intros [w Hload | audio0 w1 w Hload Hpad
          | model mel probs lang w5 evs w Hreach Hdec].
  - unfold_script. rewrite Hload. reflexivity.
  - unfold_script. rewrite Hload. cbn [world g_model trace].
    rewrite Hpad. reflexivity.
  - rewrite (transcribe_at_decode _ _ _ _ _ _ _ _ _ Hreach _ _ Hdec).
    reflexivity.
Qed.

Lemma toy_reaches_decode (f : Toy.Fault) :
  Toy.fault_eqb f Toy.NoFault || Toy.fault_eqb f Toy.FailDecode = true ->
  reaches_decode (Toy.lib f) (Toy.ready f) "clip.wav"
    "tiny" [1; 0; 2; 3]%nat Toy.table "fr" (Toy.mkWorld 6 Toy.disk)
    (Toy.clip_events f).
Proof.
  intro Hf.
  destruct f; try discriminate Hf; cbv [Toy.clip_events];
    eapply ReachesDecode with (p := (7 # 10)%Q); reflexivity.
Defined.

Lemma C1_witness :
  fst (transcribe (Toy.lib Toy.FailDecode) (Some "clip.wav")
                  (Toy.ready Toy.FailDecode))
  = Return ("Error during decoding: " ++ str Toy.boom).
Proof.
  apply (C1_guarded_steps_return_message (Toy.lib Toy.FailDecode)
           (Toy.ready Toy.FailDecode) "clip.wav" Toy.boom
           "Error during decoding: ").
  eapply FailDecode.
  - exact (toy_reaches_decode Toy.FailDecode eq_refl).
  - reflexivity.
Defined.

(** C1, as the spec states it, fails on the code.  With a library whose
    spectrogram computation raises, and with one whose language
    detection raises, the exception leaves [transcribe]; and the same
    exception is reported under two different texts according to the
    step that raised it. *)
Lemma C1_counterexample :
  fst (transcribe (Toy.lib Toy.FailLogMel) (Some "clip.wav")
                  (Toy.ready Toy.FailLogMel)) = Raise Toy.boom
  /\ fst (transcribe (Toy.lib Toy.FailDetect) (Some "clip.wav")
                     (Toy.ready Toy.FailDetect)) = Raise Toy.boom
  /\ fst (transcribe (Toy.lib Toy.FailPadOrTrim) (Some "clip.wav")
                     (Toy.ready Toy.FailPadOrTrim))
     = Return "Error processing audio file: boom"
  /\ fst (transcribe (Toy.lib Toy.FailDecode) (Some "clip.wav")
                     (Toy.ready Toy.FailDecode))
     = Return "Error during decoding: boom".
Proof. repeat split; reflexivity. Qed.

Section SuccessPath.

Variable L : Library.
Variables (st : State L) (path : string).
Variables (audio0 audio : Audio L) (mel0 mel : Mel L) (model : Model L).
Variables (tokens : Tokens L) (probs : Dict) (lang : string).
Variable result : DecodingResult L.
Variables w1 w2 w3 w4 w5 w6 : World L.

(** Every step returns. *)
Hypothesis Hload : load_audio L path (world st) = (Return audio0, w1).
Hypothesis Hpad : pad_or_trim L audio0 w1 = (Return audio, w2).
Hypothesis Hmel : log_mel_spectrogram L audio w2 = (Return mel0, w3).
Hypothesis Hmodel : g_model st = Some model.
Hypothesis Hto : to L mel0 (device L model) w3 = (Return mel, w4).
Hypothesis Hdetect :
  detect_language L model mel w4 = (Return (tokens, probs), w5).
Hypothesis Hmax : Py.max (keys probs) (get probs) = Return lang.
Hypothesis Hdecode :
  decode L model mel (mkDecodingOptions false (Some lang)) w5
  = (Return result, w6).

(** C5.  On the success path [transcribe] does the following, in this
    order and nothing else: it loads the audio, pads or trims it,
    computes the log-Mel spectrogram (and moves it to the model's
    device), detects the language (and logs the one it picked), decodes
    with the model, and returns the text of the decoding result.  Each
    step is one call into the library, on the value the step before it
    returned. *)
Theorem C5_success_path_steps :
  exists p,
    get probs lang = Some p
    /\ transcribe L (Some path) st
       = (Return (text L result),
          mkState w6 (g_model st)
            (trace st ++
             [EvLoadAudio path (Return audio0);
              EvPadOrTrim audio0 (Return audio);
              EvLogMel audio (Return mel0);
              EvTo mel0 (device L model) (Return mel);
              EvDetectLanguage model mel (Return (tokens, probs));
              EvPrint ("Detected language: " ++ lang
                       ++ " with probability " ++ format_4f L p);
              EvDecode model mel (mkDecodingOptions false (Some lang))
                       (Return result)])).
Proof.
  destruct (max_dict_inv _ _ Hmax) as [p [_ [_ [Hp _]]]].
  exists p. split; [exact Hp|].
  exact (transcribe_at_decode _ _ _ _ _ _ _ _ _
           (ReachesDecode _ _ _ _ _ _ _ _ _ _ _ _ _ _ _ _ _
              Hload Hpad Hmel Hmodel Hto Hdetect Hmax Hp)
           _ _ Hdecode).
Qed.

End SuccessPath.

Lemma C5_witness :
  exists p,
    get Toy.table "fr" = Some p
    /\ transcribe (Toy.lib Toy.NoFault) (Some "clip.wav")
                  (Toy.ready Toy.NoFault)
       = (Return "fr:3",
          @mkState (Toy.lib Toy.NoFault) (Toy.mkWorld 7 Toy.disk) (Some "tiny")
            (Toy.clip_events Toy.NoFault
             ++ [@EvDecode (Toy.lib Toy.NoFault) "tiny" [1; 0; 2; 3]%nat
                   (mkDecodingOptions false (Some "fr")) (Return "fr:3")])).
Proof.
  eapply (C5_success_path_steps (Toy.lib Toy.NoFault)
            (Toy.ready Toy.NoFault) "clip.wav");
    reflexivity.
Defined.

(** C2.  Whenever a run of [transcribe] calls [whisper.decode], the
    language in the options of that call is a key of the mapping that
    [model.detect_language] returned in the same run, no key of that
    mapping has a greater probability, and it is the first key with that
    probability. *)
Theorem C2_hint_is_most_probable_language (L : Library) (st : State L)
        (audio_filepath : option string)
        (m : Model L) (x : Mel L) (o : DecodingOptions)
        (r : Outcome (DecodingResult L)) :
  In (EvDecode m x o r) (events_of (transcribe L audio_filepath) st) ->
  exists tokens probs lang,
    In (EvDetectLanguage m x (Return (tokens, probs)))
       (events_of (transcribe L audio_filepath) st)
    /\ language o = Some lang
    /\ is_argmax probs lang.
Proof.
  destruct audio_filepath as [path|];
    [|rewrite events_of_transcribe_none; intros []].
  intro HIn.
  destruct (decode_event_inv _ _ _ _ _ _ _ HIn)
    as [probs [lang [w5 [evs [w6 [Hreach [-> Hdec]]]]]]].
  destruct (detect_event_at_decode _ _ _ _ _ _ _ _ _ Hreach) as [tokens Htok].
  exists tokens, probs, lang. split; [|split].
  - rewrite (events_at_decode _ _ _ _ _ _ _ _ _ _ _ Hreach Hdec).
    apply in_or_app. left. exact Htok.
  - reflexivity.
  - inversion Hreach; subst. apply max_dict_inv. assumption.
Qed.

Lemma C2_witness :
  exists tokens probs lang,
    In (@EvDetectLanguage (Toy.lib Toy.NoFault) "tiny" [1; 0; 2; 3]%nat
          (Return (tokens, probs)))
       (events_of (transcribe (Toy.lib Toy.NoFault) (Some "clip.wav"))
                  (Toy.ready Toy.NoFault))
    /\ language (mkDecodingOptions false (Some "fr")) = Some lang
    /\ is_argmax probs lang.
Proof.
  apply (C2_hint_is_most_probable_language (Toy.lib Toy.NoFault)
           (Toy.ready Toy.NoFault) (Some "clip.wav")
           "tiny" [1; 0; 2; 3]%nat (mkDecodingOptions false (Some "fr"))
           (Return "fr:3")).
  vm_compute. tauto.
Defined.

(** C6.  Whenever a run of [transcribe] calls [whisper.decode], the
    options of that call have [fp16 = False] and, as language, the
    language the run detected (the result of [max] over the mapping that
    [model.detect_language] returned); and when the call returns, what
    [transcribe] returns is the [text] of its result. *)
Theorem C6_decode_options_and_text (L : Library) (st : State L)
        (audio_filepath : option string)
        (m : Model L) (x : Mel L) (o : DecodingOptions)
        (r : Outcome (DecodingResult L)) :
  In (EvDecode m x o r) (events_of (transcribe L audio_filepath) st) ->
  fp16 o = false
  /\ (exists tokens probs lang,
         In (EvDetectLanguage m x (Return (tokens, probs)))
            (events_of (transcribe L audio_filepath) st)
         /\ Py.max (keys probs) (get probs) = Return lang
         /\ language o = Some lang)
  /\ (forall result,
         r = Return result ->
         fst (transcribe L audio_filepath st) = Return (text L result)).
Proof.
  destruct audio_filepath as [path|];
    [|rewrite events_of_transcribe_none; intros []].
  intro HIn.
  destruct (decode_event_inv _ _ _ _ _ _ _ HIn)
    as [probs [lang [w5 [evs [w6 [Hreach [-> Hdec]]]]]]].
  split; [reflexivity|]. split.
  - destruct (detect_event_at_decode _ _ _ _ _ _ _ _ _ Hreach) as [tokens Htok].
    exists tokens, probs, lang. split; [|split].
    + rewrite (events_at_decode _ _ _ _ _ _ _ _ _ _ _ Hreach Hdec).
      apply in_or_app. left. exact Htok.
    + inversion Hreach; subst. assumption.
    + reflexivity.
  - intros result ->.
    rewrite (transcribe_at_decode _ _ _ _ _ _ _ _ _ Hreach _ _ Hdec).
    reflexivity.
Qed.

Lemma C6_witness :
  fp16 (mkDecodingOptions false (Some "fr")) = false
  /\ (exists tokens probs lang,
         In (@EvDetectLanguage (Toy.lib Toy.NoFault) "tiny" [1; 0; 2; 3]%nat
               (Return (tokens, probs)))
            (events_of (transcribe (Toy.lib Toy.NoFault) (Some "clip.wav"))
                       (Toy.ready Toy.NoFault))
         /\ Py.max (keys probs) (get probs) = Return lang
         /\ language (mkDecodingOptions false (Some "fr")) = Some lang)
  /\ (forall result : DecodingResult (Toy.lib Toy.NoFault),
         @Return (DecodingResult (Toy.lib Toy.NoFault)) "fr:3" = Return result ->
         fst (transcribe (Toy.lib Toy.NoFault) (Some "clip.wav")
                         (Toy.ready Toy.NoFault))
         = Return (text (Toy.lib Toy.NoFault) result)).
Proof.
  apply (C6_decode_options_and_text (Toy.lib Toy.NoFault)
           (Toy.ready Toy.NoFault) (Some "clip.wav")
           "tiny" [1; 0; 2; 3]%nat (mkDecodingOptions false (Some "fr"))
           (Return "fr:3")).
  vm_compute. tauto.
Defined.

(** ** The module body and the model handle *)

Lemma count_load_model_app {L} (l l' : list (Event L)) :
  count_load_model (l ++ l') = (count_load_model l + count_load_model l')%nat.
Proof. unfold count_load_model. rewrite filter_app, length_app. reflexivity. Qed.

(** Case analysis on the outcome of the next call of a run, innermost
    first. *)
Ltac split_calls :=
  repeat match goal with
         | |- context [match ?c with _ => _ end] =>
             lazymatch c with
             | context [match _ with _ => _ end] => fail
             | _ => destruct c; cbn [world g_model trace fst snd]
             end
         end.

(** A run of the handler leaves the binding of [model] alone and logs no
    call of [whisper.load_model]. *)
Lemma transcribe_frame L audio_filepath st :
  g_model (snd (transcribe L audio_filepath st)) = g_model st
  /\ count_load_model (trace (snd (transcribe L audio_filepath st)))
     = count_load_model (trace st).
Proof.
  destruct audio_filepath as [path|]; [|split; reflexivity].
  unfold_script. unfold getitem. cbn [world g_model trace fst snd].
  split_calls;
    (split; [reflexivity|]);
    unfold count_load_model; rewrite ?filter_app, ?length_app;
    cbn [filter is_load_model length]; lia.
Qed.

Lemma serve_frame L requests :
  forall st,
    g_model (snd (serve L (transcribe L) requests st)) = g_model st
    /\ count_load_model (trace (snd (serve L (transcribe L) requests st)))
       = count_load_model (trace st).
Proof.
  induction requests as [|request rest IH]; intro st; [split; reflexivity|].
  cbn [serve].
  destruct (transcribe_frame L request st) as [Hm Hc].
  destruct (transcribe L request st) as [[s|e|b] st'];
    cbn [fst snd] in *.
  3: split; assumption.
  all: match goal with
       | |- context [serve _ _ _ ?s] => destruct (IH s) as [Hm' Hc']
       end;
    rewrite Hm', Hc'; cbn [g_model trace];
    rewrite count_load_model_app, Hc;
    split; [assumption | apply Nat.add_0_r].
Qed.

(** C7.  When [whisper.load_model] raises an exception at startup, the
    module body prints the error and the advice line and ends in
    [SystemExit]: [load_model] has been called once, with the one
    configured size, the name [model] stays unbound, and nothing of the
    serving part has run, whatever the browser would have sent. *)
Theorem C7_model_load_failure_is_fatal (L : Library)
        (requests : list (option string)) (st : State L)
        (e : Exn) (w : World L) :
  load_model L WHISPER_MODEL_SIZE "cpu" (world st) = (Raise e, w) ->
  main L requests st
  = (Unwind (SystemExit None),
     mkState w (g_model st)
       (trace st ++
        [EvPrint "Loading Whisper model: tiny...";
         EvLoadModel "tiny" "cpu" (Raise e);
         EvPrint ("Error loading Whisper model: " ++ str e);
         EvPrint "Please ensure you have an internet connection for download (if not cached) and sufficient memory."]))
  /\ count_load_model (events_of (main L requests) st) = 1%nat
  /\ existsb is_serving (events_of (main L requests) st) = false.
Proof.
  intro Hload.
  assert (Hrun : main L requests st
    = (Unwind (SystemExit None),
       mkState w (g_model st)
         (trace st ++
          [EvPrint "Loading Whisper model: tiny...";
           EvLoadModel "tiny" "cpu" (Raise e);
           EvPrint ("Error loading Whisper model: " ++ str e);
           EvPrint "Please ensure you have an internet connection for download (if not cached) and sufficient memory."]))).
  { cbv [main try_catch bind print whisper_load_model call set_model exit].
    cbn [world g_model trace].
    rewrite Hload. cbn [world g_model trace].
    rewrite <- !app_assoc. reflexivity. }
  split; [exact Hrun|].
  unfold events_of. rewrite Hrun. cbn [snd trace].
  rewrite skipn_length_app. split; reflexivity.
Qed.

Lemma C7_witness :
  main (Toy.lib Toy.FailLoadModel) [Some "clip.wav"; None]
       (Toy.boot Toy.FailLoadModel)
  = (Unwind (SystemExit None),
     @mkState (Toy.lib Toy.FailLoadModel) (Toy.mkWorld 1 Toy.disk) None
       [EvPrint "Loading Whisper model: tiny...";
        EvLoadModel "tiny" "cpu" (Raise Toy.boom);
        EvPrint "Error loading Whisper model: boom";
        EvPrint "Please ensure you have an internet connection for download (if not cached) and sufficient memory."])
  /\ count_load_model
       (events_of (main (Toy.lib Toy.FailLoadModel) [Some "clip.wav"; None])
                  (Toy.boot Toy.FailLoadModel)) = 1%nat
  /\ existsb is_serving
       (events_of (main (Toy.lib Toy.FailLoadModel) [Some "clip.wav"; None])
                  (Toy.boot Toy.FailLoadModel)) = false.
Proof.
  apply (C7_model_load_failure_is_fatal (Toy.lib Toy.FailLoadModel)
           [Some "clip.wav"; None] (Toy.boot Toy.FailLoadModel)
           Toy.boom (Toy.mkWorld 1 Toy.disk)).
  reflexivity.
Defined.

Lemma transcribe_keeps_load_log L audio_filepath st :
  filter is_load_model (trace (snd (transcribe L audio_filepath st)))
  = filter is_load_model (trace st).
Proof.
  destruct audio_filepath as [path|]; [|reflexivity].
  unfold_script. unfold getitem. cbn [world g_model trace fst snd].
  split_calls; rewrite ?filter_app; cbn [filter is_load_model];
    rewrite ?app_nil_r; reflexivity.
Qed.

Lemma serve_keeps_load_log L requests :
  forall st,
    filter is_load_model (trace (snd (serve L (transcribe L) requests st)))
    = filter is_load_model (trace st).
Proof.
  induction requests as [|request rest IH]; intro st; [reflexivity|].
  cbn [serve].
  pose proof (transcribe_keeps_load_log L request st) as Hlog.
  destruct (transcribe L request st) as [[s|e|b] st1]; cbn [fst snd] in *.
  3: exact Hlog.
  all: rewrite IH; cbn [trace]; rewrite filter_app, Hlog;
    cbn [filter is_load_model]; apply app_nil_r.
Qed.

(** How the operations of the script compose with respect to an
    observation of the world that the library leaves alone. *)
Section Frame.

Variable L : Library.
Variable S : Type.
Variable read : World L -> S.

Lemma preserves_ret {A} (a : A) : preserves read (@ret L A a).
Proof. intro st. reflexivity. Qed.

Lemma preserves_lift {A} (r : Outcome A) : preserves read (@lift L A r).
Proof. intro st. reflexivity. Qed.

Lemma preserves_print (line : string) : preserves read (@print L line).
Proof. intro st. reflexivity. Qed.

Lemma preserves_get_model : preserves read (@get_model L).
Proof. intro st. unfold get_model. destruct (g_model st); reflexivity. Qed.

Lemma preserves_call {A} (f : World L -> Outcome A * World L)
      (ev : Outcome A -> Event L) :
  (forall w, read (snd (f w)) = read w) -> preserves read (call f ev).
Proof.
  intros Hf st. unfold call. specialize (Hf (world st)).
  destruct (f (world st)) as [r w]. exact Hf.
Qed.

Lemma preserves_bind {A B} (c : M L A) (k : A -> M L B) :
  preserves read c -> (forall a, preserves read (k a)) ->
  preserves read (bind c k).
Proof.
  intros Hc Hk st. unfold bind. specialize (Hc st).
  destruct (c st) as [[a|e|b] st']; cbn [snd] in *; try exact Hc.
  rewrite Hk. exact Hc.
Qed.

Lemma preserves_try_or_return {A B} (body : M L A) (handler : Exn -> M L B)
      (k : A -> M L B) :
  preserves read body -> (forall e, preserves read (handler e)) ->
  (forall a, preserves read (k a)) ->
  preserves read (try_or_return body handler k).
Proof.
  intros Hb Hh Hk st. unfold try_or_return. specialize (Hb st).
  destruct (body st) as [[a|e|b] st']; cbn [snd] in *.
  - rewrite Hk. exact Hb.
  - rewrite Hh. exact Hb.
  - exact Hb.
Qed.

Hypothesis Hlib : untouched_by_library L read.

Lemma transcribe_preserves audio_filepath :
  preserves read (transcribe L audio_filepath).
Proof.
  destruct audio_filepath as [path|]; cbn [transcribe];
    [|apply preserves_ret].
  apply preserves_try_or_return.
  - apply preserves_bind; [|intro audio];
      apply preserves_call; intro w; apply Hlib.
  - intro e. apply preserves_ret.
  - intro audio.
    apply preserves_bind;
      [apply preserves_call; intro w; apply Hlib | intro mel0].
    apply preserves_bind; [apply preserves_get_model | intro model].
    apply preserves_bind;
      [apply preserves_call; intro w; apply Hlib | intro mel].
    apply preserves_bind; [apply preserves_get_model | intro model'].
    apply preserves_bind;
      [apply preserves_call; intro w; apply Hlib | intros [tokens probs]].
    apply preserves_bind; [apply preserves_lift | intro lang].
    apply preserves_bind; [apply preserves_lift | intro p].
    apply preserves_bind; [apply preserves_print | intros _].
    apply preserves_try_or_return.
    + apply preserves_bind; [apply preserves_get_model | intro model''].
      apply preserves_call; intro w; apply Hlib.
    + intro e. apply preserves_ret.
    + intro result. apply preserves_ret.
Qed.

End Frame.


Lemma toy_files_untouched (f : Toy.Fault) :
  untouched_by_library (Toy.lib f) Toy.files.
Proof.
  constructor; cbn [Toy.lib load_audio pad_or_trim log_mel_spectrogram to
                    detect_language decode];
    intros; unfold Toy.failing;
    try (destruct (Toy.fault_eqb _ _); reflexivity);
    try reflexivity.
  destruct (Toy.lookup _ _); reflexivity.
Qed.



(** ** Determinism *)

Lemma toy_deterministic (f : Toy.Fault) : deterministic (Toy.lib f).
Proof.
  constructor; cbn [Toy.lib load_audio pad_or_trim log_mel_spectrogram to
                    detect_language decode file_contents];
    intros; unfold Toy.failing;
    try (destruct (Toy.fault_eqb _ _); reflexivity);
    try reflexivity.
  match goal with
  | H : ?l = ?l' |- _ => rewrite H; destruct l'; reflexivity
  end.
Qed.

(** Two runs that have agreed so far on what their calls returned agree
    on the next call. *)
Ltac in_step E :=
  let H := fresh "E" in
  pose proof E as H;
  match type of H with
  | fst ?c = fst ?c' =>
      let r := fresh "r" in
      let r' := fresh "r" in
      destruct c as [r ?]; destruct c' as [r' ?];
      cbn [fst] in H; subst r';
      destruct r; cbn [world g_model trace fst snd]; try reflexivity
  end.

(** The same for a call [f w] on the left whose counterpart on the right
    runs in another world. *)
Ltac in_step_call f E :=
  match goal with
  | |- context [f ?w] =>
      match goal with
      | |- _ = ?rhs =>
          match rhs with
          | context [f ?w'] => in_step (E w w')
          end
      end
  end.

(** C10, as the code has it.  With a library whose calls compute (same
    arguments, same outcome; same bytes under the path, same audio), two
    runs of [transcribe] on the same argument and with the same [model]
    end the same way, with the same string, whatever else differs between
    the two moments: the rest of the world, and what has been logged.
    The handler adds no input of its own to what the library is given. *)
Theorem C10_transcribe_is_deterministic (L : Library)
        (st st' : State L) (audio_filepath : option string) :
  deterministic L ->
  g_model st = g_model st' ->
  (forall path,
      audio_filepath = Some path ->
      file_contents L (world st) path = file_contents L (world st') path) ->
  fst (transcribe L audio_filepath st) = fst (transcribe L audio_filepath st').
Proof.
  intros Hdet Hm Hf.
  destruct audio_filepath as [path|]; [|reflexivity].
  specialize (Hf path eq_refl).
  unfold_script. unfold getitem. cbn [world g_model trace].
  rewrite <- Hm.
  in_step (det_load_audio L Hdet path _ _ Hf).
  match goal with
  | |- context [pad_or_trim L ?a _] =>
      in_step_call (pad_or_trim L a) (det_pad_or_trim L Hdet a)
  end.
  match goal with
  | |- context [log_mel_spectrogram L ?a _] =>
      in_step_call (log_mel_spectrogram L a)
                   (det_log_mel_spectrogram L Hdet a)
  end.
  destruct (g_model st) as [model|]; cbn [world g_model trace fst snd];
    [|reflexivity].
  match goal with
  | |- context [to L ?x ?d _] =>
      in_step_call (to L x d) (det_to L Hdet x d)
  end.
  match goal with
  | |- context [detect_language L ?m ?x _] =>
      in_step_call (detect_language L m x) (det_detect_language L Hdet m x)
  end.
  match goal with
  | |- context [match ?t with pair _ _ => _ end] =>
      is_var t; destruct t as [tokens probs]
  end.
  cbn [world g_model trace fst snd].
  destruct (Py.max (keys probs) (get probs)) as [lang|e|b];
    cbn [world g_model trace fst snd]; try reflexivity.
  destruct (get probs lang) as [p|];
    cbn [world g_model trace fst snd]; try reflexivity.
  match goal with
  | |- context [decode L ?m ?x ?o _] =>
      in_step_call (decode L m x o) (det_decode L Hdet m x o)
  end.
Qed.

Lemma C10_witness :
  fst (transcribe (Toy.lib Toy.NoFault) (Some "clip.wav")
                  (Toy.ready Toy.NoFault))
  = fst (transcribe (Toy.lib Toy.NoFault) (Some "clip.wav")
                    (Toy.later Toy.NoFault)).
Proof.
  apply (C10_transcribe_is_deterministic (Toy.lib Toy.NoFault)
           (Toy.ready Toy.NoFault) (Toy.later Toy.NoFault) (Some "clip.wav")
           (toy_deterministic Toy.NoFault)).
  - reflexivity.
  - intros path Hpath. injection Hpath as <-. reflexivity.
Defined.

(** C10, as the spec states it, fails on the code: the handler passes
    its work to the library and returns what the library answers.  With
    a library whose [decode] draws from a random source, two calls on
    the same path, with the same bytes under it and the same model,
    return different strings. *)
Lemma C10_counterexample :
  g_model Toy.draw1 = g_model Toy.draw2
  /\ file_contents Toy.sampling (world Toy.draw1) "clip.wav"
     = file_contents Toy.sampling (world Toy.draw2) "clip.wav"
  /\ fst (transcribe Toy.sampling (Some "clip.wav") Toy.draw1)
     = Return "fr:0"
  /\ fst (transcribe Toy.sampling (Some "clip.wav") Toy.draw2)
     = Return "fr:1".
Proof. repeat split; reflexivity. Qed.

(** ** Further properties of the handler *)

Lemma transcribe_at_detection L st path model mel w4 evs :
  reaches_detection L st path model mel w4 evs ->
  forall r w5,
    detect_language L model mel w4 = (r, w5) ->
    (forall tokens probs, r = Return (tokens, probs) -> probs = []) ->
    transcribe L (Some path) st
    = (match r with
       | Return _ =>
           Raise (mkExn "ValueError" "max() arg is an empty sequence")
       | Raise e => Raise e
       | Unwind b => Unwind b
       end,
       mkState w5 (g_model st)
               (trace st ++ evs ++ [EvDetectLanguage model mel r])).
Proof.
  intros Hreach r w5 Hdet Hempty. inversion Hreach; subst; clear Hreach.
  unfold_script. cbn [world g_model trace].
  repeat match goal with
         | H : _ = (_, _) |- _ => rewrite H; clear H; cbn [world g_model trace]
         | H : g_model _ = Some _ |- _ => rewrite H; cbn [world g_model trace]
         end.
  destruct r as [[tokens probs]|e|b]; cbn [world g_model trace];
    [rewrite (Hempty tokens probs eq_refl); cbn|..];
    rewrite <- !app_assoc; reflexivity.
Qed.

(** X1.  An exception raised by the spectrogram computation, by the move
    to the model's device or by language detection is not caught: it leaves
    [transcribe] as it was raised, and [whisper.decode] is not called. *)
Theorem unguarded_exception_propagates (L : Library) (st : State L)
        (path : string) (e : Exn) (w : World L) :
  unguarded_failure L st path e w ->
  fst (transcribe L (Some path) st) = Raise e
  /\ world (snd (transcribe L (Some path) st)) = w
  /\ existsb is_decode (events_of (transcribe L (Some path)) st) = false.
Proof.
  intros [audio0 w1 audio w2 Hload Hpad Hmel
         | audio0 w1 audio w2 mel0 w3 model Hload Hpad Hmel Hmodel Hto
         | model mel w4 evs Hreach Hdet].
  - unfold events_of. unfold_script. cbn [world g_model trace].
    rewrite Hload. cbn [world g_model trace]. rewrite Hpad.
    cbn [world g_model trace]. rewrite Hmel. cbn [world g_model trace fst snd].
    rewrite <- !app_assoc, skipn_length_app. repeat split.
  - unfold events_of. unfold_script. cbn [world g_model trace].
    rewrite Hload. cbn [world g_model trace]. rewrite Hpad.
    cbn [world g_model trace]. rewrite Hmel. cbn [world g_model trace].
    rewrite Hmodel. cbn [world g_model trace]. rewrite Hto.
    cbn [world g_model trace fst snd].
    rewrite <- !app_assoc, skipn_length_app. repeat split.
  - unfold events_of.
    rewrite (transcribe_at_detection _ _ _ _ _ _ _ Hreach _ _ Hdet)
      by (intros; discriminate).
    cbn [fst snd world trace]. rewrite skipn_length_app.
    inversion Hreach; subst. repeat split.
Qed.

Lemma unguarded_exception_propagates_witness :
  fst (transcribe (Toy.lib Toy.FailDetect) (Some "clip.wav")
                  (Toy.ready Toy.FailDetect)) = Raise Toy.boom
  /\ world (snd (transcribe (Toy.lib Toy.FailDetect) (Some "clip.wav")
                            (Toy.ready Toy.FailDetect)))
     = Toy.mkWorld 6 Toy.disk
  /\ existsb is_decode
       (events_of (transcribe (Toy.lib Toy.FailDetect) (Some "clip.wav"))
                  (Toy.ready Toy.FailDetect)) = false.
Proof.
  apply (unguarded_exception_propagates (Toy.lib Toy.FailDetect)
           (Toy.ready Toy.FailDetect) "clip.wav" Toy.boom).
  eapply FailDetect.
  - eapply ReachesDetection; reflexivity.
  - reflexivity.
Defined.

(** X2.  When language detection returns an empty mapping, [max] raises
    [ValueError]; the handler does not catch it, prints nothing and does
    not call [whisper.decode]. *)
Theorem empty_mapping_raises_value_error (L : Library) (st : State L)
        (path : string) (model : Model L) (mel : Mel L)
        (w4 w5 : World L) (evs : list (Event L)) (tokens : Tokens L) :
  reaches_detection L st path model mel w4 evs ->
  detect_language L model mel w4 = (Return (tokens, []), w5) ->
  exists e,
    exn_class e = "ValueError"
    /\ transcribe L (Some path) st
       = (Raise e,
          mkState w5 (g_model st)
            (trace st ++ evs
             ++ [EvDetectLanguage model mel (Return (tokens, []))])).
Proof.
  intros Hreach Hdet.
  eexists. split; [|
    rewrite (transcribe_at_detection _ _ _ _ _ _ _ Hreach _ _ Hdet);
    [reflexivity | intros tokens' probs H; injection H as _ <-; reflexivity]].
  reflexivity.
Qed.

Lemma empty_mapping_raises_value_error_witness :
  exists e,
    exn_class e = "ValueError"
    /\ transcribe (Toy.lib Toy.EmptyProbs) (Some "clip.wav")
                  (Toy.ready Toy.EmptyProbs)
       = (Raise e,
          @mkState (Toy.lib Toy.EmptyProbs) (Toy.mkWorld 6 Toy.disk)
            (Some "tiny")
            [@EvLoadAudio (Toy.lib Toy.EmptyProbs) "clip.wav"
               (Return [1; 0; 2; 3; 4]%nat);
             @EvPadOrTrim (Toy.lib Toy.EmptyProbs) [1; 0; 2; 3; 4]%nat
               (Return [1; 0; 2; 3]%nat);
             @EvLogMel (Toy.lib Toy.EmptyProbs) [1; 0; 2; 3]%nat
               (Return [1; 0; 2; 3]%nat);
             @EvTo (Toy.lib Toy.EmptyProbs) [1; 0; 2; 3]%nat "cpu"
               (Return [1; 0; 2; 3]%nat);
             @EvDetectLanguage (Toy.lib Toy.EmptyProbs) "tiny"
               [1; 0; 2; 3]%nat (Return (0%nat, []))]).
Proof.
  apply (empty_mapping_raises_value_error (Toy.lib Toy.EmptyProbs)
           (Toy.ready Toy.EmptyProbs) "clip.wav"
           ("tiny" : Model (Toy.lib Toy.EmptyProbs))
           ([1; 0; 2; 3]%nat : Mel (Toy.lib Toy.EmptyProbs))
           (Toy.mkWorld 5 Toy.disk : World (Toy.lib Toy.EmptyProbs))
           (Toy.mkWorld 6 Toy.disk : World (Toy.lib Toy.EmptyProbs))
           (firstn 4 (Toy.clip_events Toy.EmptyProbs))
           (0%nat : Tokens (Toy.lib Toy.EmptyProbs))).
  - cbv [Toy.clip_events firstn]. eapply ReachesDetection; reflexivity.
  - reflexivity.
Defined.

(** X3.  Lines 56-57 on any mapping: [max(probs, key=probs.get)] raises only
    when the mapping is empty, and then [ValueError]; otherwise it
    returns one of the mapping's keys, so that the lookup
    [probs[detected_language]] of the log line finds a value and cannot
    raise [KeyError]. *)
Theorem detected_language_is_a_key (probs : Dict) :
  (probs = []
   /\ exists e,
       exn_class e = "ValueError"
       /\ Py.max (keys probs) (get probs) = Raise e)
  \/ exists lang p,
      Py.max (keys probs) (get probs) = Return lang
      /\ In lang (keys probs)
      /\ getitem probs lang = Return p.
Proof.
  destruct probs as [|kv probs].
  - left. split; [reflexivity|]. eexists. split; [|reflexivity]. reflexivity.
  - right.
    destruct (max_dict_spec (kv :: probs)) as [lang [Hrun [p [_ [_ [Hp _]]]]]];
      [congruence|].
    exists lang, p. split; [exact Hrun|]. split.
    + eapply key_of_get. exact Hp.
    + unfold getitem. rewrite Hp. reflexivity.
Qed.

(** X4.  After a failed load, or a failed pad/trim, the handler stops: it
    returns the error text, having called nothing but [load_audio] (and
    [pad_or_trim]) and printed nothing. *)
Theorem audio_failure_stops_the_handler (L : Library) (st : State L)
        (path : string) (e : Exn) (w : World L) :
  (load_audio L path (world st) = (Raise e, w)
   \/ exists audio0 w1,
       load_audio L path (world st) = (Return audio0, w1)
       /\ pad_or_trim L audio0 w1 = (Raise e, w)) ->
  exists evs,
    transcribe L (Some path) st
    = (Return ("Error processing audio file: " ++ str e),
       mkState w (g_model st) (trace st ++ evs))
    /\ forallb is_preprocessing evs = true.
Proof.
  intros [Hload | [audio0 [w1 [Hload Hpad]]]].
  - exists [EvLoadAudio path (Raise e)]. split; [|reflexivity].
    unfold_script. rewrite Hload. reflexivity.
  - exists [EvLoadAudio path (Return audio0); EvPadOrTrim audio0 (Raise e)].
    split; [|reflexivity].
    unfold_script. rewrite Hload. cbn [world g_model trace].
    rewrite Hpad. cbn [world g_model trace].
    rewrite <- !app_assoc. reflexivity.
Qed.

Lemma audio_failure_stops_the_handler_witness :
  exists evs,
    transcribe (Toy.lib Toy.FailPadOrTrim) (Some "clip.wav")
               (Toy.ready Toy.FailPadOrTrim)
    = (Return ("Error processing audio file: " ++ str Toy.boom),
       @mkState (Toy.lib Toy.FailPadOrTrim) (Toy.mkWorld 3 Toy.disk)
                (Some "tiny") ([] ++ evs))
    /\ forallb is_preprocessing evs = true.
Proof.
  apply (audio_failure_stops_the_handler (Toy.lib Toy.FailPadOrTrim)
           (Toy.ready Toy.FailPadOrTrim) "clip.wav" Toy.boom
           (Toy.mkWorld 3 Toy.disk : World (Toy.lib Toy.FailPadOrTrim))).
  right. exists [1; 0; 2; 3; 4]%nat.
  exists (Toy.mkWorld 2 Toy.disk : World (Toy.lib Toy.FailPadOrTrim)).
  split; reflexivity.
Defined.

(** As [split_calls], keeping the equation of every call. *)
Ltac split_calls_eqn :=
  repeat match goal with
         | |- context [match ?c with _ => _ end] =>
             lazymatch c with
             | context [match _ with _ => _ end] => fail
             | _ => destruct c eqn:?; cbn [world g_model trace fst snd]
             end
         end.

Ltac events_of_run :=
  rewrite <- ?app_assoc; rewrite ?skipn_length_app.

(** X5.  An exception can leave [transcribe] only from between its two [try]
    blocks: when the handler raises, the audio was loaded and padded or
    trimmed, and [whisper.decode] was not called. *)
Theorem exception_escapes_only_between_try_blocks (L : Library)
        (st : State L) (audio_filepath : option string) (e : Exn) :
  fst (transcribe L audio_filepath st) = Raise e ->
  exists path audio0 w1 audio w2,
    audio_filepath = Some path
    /\ load_audio L path (world st) = (Return audio0, w1)
    /\ pad_or_trim L audio0 w1 = (Return audio, w2)
    /\ existsb is_decode (events_of (transcribe L audio_filepath) st) = false.
Proof.
  destruct audio_filepath as [path|]; [|discriminate].
  unfold events_of. unfold_script. unfold getitem.
  cbn [world g_model trace fst snd].
  split_calls_eqn; intro H; try discriminate H;
    do 5 eexists; (split; [reflexivity|]);
    (split; [eassumption|]); (split; [eassumption|]);
    events_of_run; reflexivity.
Qed.

Lemma exception_escapes_only_between_try_blocks_witness :
  exists path audio0 w1 audio w2,
    Some "clip.wav" = Some path
    /\ load_audio (Toy.lib Toy.FailLogMel) path
                  (world (Toy.ready Toy.FailLogMel)) = (Return audio0, w1)
    /\ pad_or_trim (Toy.lib Toy.FailLogMel) audio0 w1 = (Return audio, w2)
    /\ existsb is_decode
         (events_of (transcribe (Toy.lib Toy.FailLogMel) (Some "clip.wav"))
                    (Toy.ready Toy.FailLogMel)) = false.
Proof.
  apply (exception_escapes_only_between_try_blocks (Toy.lib Toy.FailLogMel)
           (Toy.ready Toy.FailLogMel) (Some "clip.wav") Toy.boom).
  reflexivity.
Defined.

Lemma max_loop_never_unwinds key it :
  forall maxitem maxval b, max_loop key maxitem maxval it <> Unwind b.
Proof.
  induction it as [|item it IH]; intros maxitem maxval b; cbn [max_loop].
  - discriminate.
  - destruct (key item) as [v|], maxval as [mv|]; cbn [gt]; try discriminate.
    destruct (negb (Qle_bool v mv)); apply IH.
Qed.

Lemma max_never_unwinds iterable key b : Py.max iterable key <> Unwind b.
Proof.
  destruct iterable as [|item it]; cbn [Py.max].
  - discriminate.
  - apply max_loop_never_unwinds.
Qed.

(** X6.  [except Exception] does not catch a [BaseException], and the
    handler raises none of its own: a run of [transcribe] ends in a
    [BaseException] exactly when the last library call it made ended in
    that one. *)
Theorem base_exception_passes_through (L : Library) (st : State L)
        (audio_filepath : option string) (b : BaseExn) :
  fst (transcribe L audio_filepath st) = Unwind b
  <-> last_unwound (events_of (transcribe L audio_filepath) st) = Some b.
Proof.
  destruct audio_filepath as [path|].
  - unfold events_of. unfold_script. unfold getitem.
    cbn [world g_model trace fst snd].
    split_calls_eqn; events_of_run;
      cbn [last_unwound rev app unwound base_exception];
      try (split; intro H; congruence).
    exfalso. eapply max_never_unwinds. eassumption.
  - rewrite events_of_transcribe_none. cbn. split; discriminate.
Qed.

(** X7.  One request, one pass: in a run of [transcribe] on a path, no entry
    point of the library is called twice and at most one line is
    printed, and the only audio file read is the one at that path. *)
Theorem one_call_per_entry_point (L : Library) (st : State L)
        (path : string) :
  NoDup (map kind (events_of (transcribe L (Some path)) st))
  /\ Forall (reads_only path) (events_of (transcribe L (Some path)) st).
Proof.
  unfold events_of. unfold_script. unfold getitem.
  cbn [world g_model trace fst snd].
  split_calls; events_of_run; cbn [map kind app]; split;
    try (repeat constructor; cbn; intuition discriminate).
Qed.

(** ** Further properties of the module body *)

Lemma transcribe_log L audio_filepath st :
  exists evs,
    trace (snd (transcribe L audio_filepath st)) = (trace st ++ evs)%list
    /\ forall m, g_model st = Some m -> Forall (uses_model m) evs.
Proof.
  destruct audio_filepath as [path|].
  - unfold_script. unfold getitem. cbn [world g_model trace fst snd].
    split_calls; eexists;
      (split; [rewrite <- ?app_assoc; reflexivity|]);
      intros m' Hm; try discriminate Hm; try (injection Hm as ->);
      repeat constructor.
  - exists []. split; [symmetry; apply app_nil_r | constructor].
Qed.

Lemma serve_log L requests :
  forall st m,
    g_model st = Some m ->
    exists evs,
      trace (snd (serve L (transcribe L) requests st)) = (trace st ++ evs)%list
      /\ Forall (uses_model m) evs.
Proof.
  induction requests as [|request rest IH]; intros st m Hm.
  - exists []. split; [symmetry; apply app_nil_r | constructor].
  - cbn [serve].
    destruct (transcribe_log L request st) as [evs1 [Htr Huse]].
    destruct (transcribe_frame L request st) as [Hkeep _].
    specialize (Huse m Hm).
    destruct (transcribe L request st) as [[s|e|b] st1];
      cbn [fst snd] in *.
    3: exists evs1; split; assumption.
    all: match goal with
         | |- context [serve _ _ _ ?s2] =>
             destruct (IH s2 m) as [evs2 [Htr2 Huse2]];
             [cbn [g_model]; congruence|];
             rewrite Htr2; cbn [trace]; rewrite Htr;
             eexists; split; [rewrite <- !app_assoc; reflexivity|];
             apply Forall_app; split; [assumption|];
             apply Forall_app; split; [repeat constructor | assumption]
         end.
Qed.

(** X8.  Every run of the model in a session runs the model that
    [whisper.load_model] returned at startup, and the name [model] is
    still bound to it when the module body ends. *)
Theorem session_runs_the_startup_model (L : Library)
        (requests : list (option string)) (st : State L)
        (model : Model L) (w1 : World L) :
  load_model L WHISPER_MODEL_SIZE "cpu" (world st) = (Return model, w1) ->
  g_model (snd (main L requests st)) = Some model
  /\ Forall (uses_model model) (events_of (main L requests) st).
Proof.
  intro Hload. unfold events_of.
  cbv [main try_catch bind print whisper_load_model call set_model exit
       gr_launch ret].
  cbn [world g_model trace]. rewrite Hload. cbn [world g_model trace].
  destruct (launch L w1) as [[u|e|b] w2]; cbn [world g_model trace fst snd].
  2, 3: events_of_run; split; [reflexivity | repeat constructor].
  match goal with
  | |- context [serve _ _ _ ?s] =>
      destruct (serve_log L requests s model eq_refl) as [evs [Htr Huse]];
      destruct (serve_frame L requests s) as [Hkeep _];
      destruct (serve L (transcribe L) requests s) as [[u'|e|b] st']
  end; cbn [world g_model trace fst snd] in *;
    rewrite Htr; events_of_run;
    (split; [exact Hkeep|]);
    repeat (apply Forall_cons; [exact I|]);
    rewrite ?Forall_app; repeat split; try assumption; repeat constructor.
Qed.

Lemma session_runs_the_startup_model_witness :
  g_model (snd (main (Toy.lib Toy.NoFault) [Some "clip.wav"; None]
                     (Toy.boot Toy.NoFault))) = Some "tiny"
  /\ Forall (@uses_model (Toy.lib Toy.NoFault) "tiny")
            (events_of (main (Toy.lib Toy.NoFault) [Some "clip.wav"; None])
                       (Toy.boot Toy.NoFault)).
Proof.
  apply (session_runs_the_startup_model (Toy.lib Toy.NoFault)
           [Some "clip.wav"; None] (Toy.boot Toy.NoFault)
           ("tiny" : Model (Toy.lib Toy.NoFault))
           (Toy.mkWorld 1 Toy.disk : World (Toy.lib Toy.NoFault))).
  reflexivity.
Defined.

(** X9.  When the model loads and [gr.Interface(...).launch()] raises an
    exception, the module body prints the error and the advice line and
    ends normally: the exception is not re-raised and no request is
    answered. *)
Theorem launch_failure_is_reported (L : Library)
        (requests : list (option string)) (st : State L)
        (model : Model L) (w1 : World L) (e : Exn) (w2 : World L) :
  load_model L WHISPER_MODEL_SIZE "cpu" (world st) = (Return model, w1) ->
  launch L w1 = (Raise e, w2) ->
  main L requests st
  = (Return tt,
     mkState w2 (Some model)
       (trace st ++
        [EvPrint "Loading Whisper model: tiny...";
         EvLoadModel "tiny" "cpu" (Return model);
         EvPrint "Whisper model 'tiny' loaded successfully on CPU.";
         EvPrint (newline ++ "Launching Gradio Web UI...");
         EvLaunch (Raise e);
         EvPrint ("Error launching Gradio interface: " ++ str e);
         EvPrint "Please ensure Gradio is installed (`pip install gradio`) and your port is available."])).
Proof.
  intros Hload Hlaunch.
  cbv [main try_catch bind print whisper_load_model call set_model exit
       gr_launch ret].
  cbn [world g_model trace]. rewrite Hload. cbn [world g_model trace].
  rewrite Hlaunch. cbn [world g_model trace].
  rewrite <- !app_assoc. reflexivity.
Qed.

Lemma launch_failure_is_reported_witness :
  main (Toy.lib Toy.FailLaunch) [Some "clip.wav"] (Toy.boot Toy.FailLaunch)
  = (Return tt,
     @mkState (Toy.lib Toy.FailLaunch) (Toy.mkWorld 2 Toy.disk) (Some "tiny")
       [EvPrint "Loading Whisper model: tiny...";
        @EvLoadModel (Toy.lib Toy.FailLaunch) "tiny" "cpu" (Return "tiny");
        EvPrint "Whisper model 'tiny' loaded successfully on CPU.";
        EvPrint (newline ++ "Launching Gradio Web UI...");
        EvLaunch (Raise Toy.boom);
        EvPrint "Error launching Gradio interface: boom";
        EvPrint "Please ensure Gradio is installed (`pip install gradio`) and your port is available."]).
Proof.
  apply (launch_failure_is_reported (Toy.lib Toy.FailLaunch)
           [Some "clip.wav"] (Toy.boot Toy.FailLaunch)
           ("tiny" : Model (Toy.lib Toy.FailLaunch))
           (Toy.mkWorld 1 Toy.disk : World (Toy.lib Toy.FailLaunch))
           Toy.boom
           (Toy.mkWorld 2 Toy.disk : World (Toy.lib Toy.FailLaunch)));
    reflexivity.
Defined.

(** X10.  Nothing of the serving part of the module body runs unless
    [whisper.load_model] returned: neither an exception nor a
    [BaseException] at startup lets the script reach the launch. *)
Theorem serving_needs_a_loaded_model (L : Library)
        (requests : list (option string)) (st : State L) :
  existsb is_serving (events_of (main L requests) st) = true ->
  exists model w1,
    load_model L WHISPER_MODEL_SIZE "cpu" (world st) = (Return model, w1).
Proof.
  unfold events_of.
  cbv [main try_catch bind print whisper_load_model call set_model exit
       gr_launch ret].
  cbn [world g_model trace].
  destruct (load_model L WHISPER_MODEL_SIZE "cpu" (world st))
    as [[model|e|b] w1]; cbn [world g_model trace fst snd].
  - intros _. exists model, w1. reflexivity.
  - events_of_run. discriminate.
  - events_of_run. discriminate.
Qed.

Lemma serving_needs_a_loaded_model_witness :
  exists model w1,
    load_model (Toy.lib Toy.NoFault) WHISPER_MODEL_SIZE "cpu"
               (world (Toy.boot Toy.NoFault)) = (Return model, w1).
Proof.
  apply (serving_needs_a_loaded_model (Toy.lib Toy.NoFault)
           [Some "clip.wav"] (Toy.boot Toy.NoFault)).
  reflexivity.
Defined.


(** ** What the handler can return *)

(** X12.  Every string [transcribe] returns is the fixed message, an error
    text of one of the two [except] clauses, or the text of the result
    that the run's call of [whisper.decode] returned. *)
Theorem returned_string_forms (L : Library) (st : State L)
        (audio_filepath : option string) (s : string) :
  fst (transcribe L audio_filepath st) = Return s ->
  (audio_filepath = None /\ s = "Please provide audio input.")
  \/ (exists e, s = "Error processing audio file: " ++ str e)
  \/ (exists e, s = "Error during decoding: " ++ str e)
  \/ (exists m x o result,
         In (EvDecode m x o (Return result))
            (events_of (transcribe L audio_filepath) st)
         /\ s = text L result).
Proof.
  destruct audio_filepath as [path|].
  - unfold events_of. unfold_script. unfold getitem.
    cbn [world g_model trace fst snd].
    split_calls; intro H; try discriminate H; injection H as <-;
      first [ right; left; eexists; reflexivity
            | right; right; left; eexists; reflexivity
            | right; right; right; do 4 eexists;
              split; [events_of_run; simpl; tauto | reflexivity] ].
  - intro H. injection H as <-. left. split; reflexivity.
Qed.

Lemma returned_string_forms_witness :
  (Some "clip.wav" = None /\ "fr:3" = "Please provide audio input.")
  \/ (exists e, "fr:3" = "Error processing audio file: " ++ str e)
  \/ (exists e, "fr:3" = "Error during decoding: " ++ str e)
  \/ (exists m x o result,
         In (@EvDecode (Toy.lib Toy.NoFault) m x o (Return result))
            (events_of (transcribe (Toy.lib Toy.NoFault) (Some "clip.wav"))
                       (Toy.ready Toy.NoFault))
         /\ "fr:3" = text (Toy.lib Toy.NoFault) result).
Proof.
  apply (returned_string_forms (Toy.lib Toy.NoFault)
           (Toy.ready Toy.NoFault) (Some "clip.wav") "fr:3").
  reflexivity.
Defined.
